(** * RoadPlan: the application layout ([src/routes/layout.tsx])

    A shallow embedding of the route layout of RoadPlan: the [onGet]
    request handler that fixes the cache policy of every page, and the
    layout component that creates the preference store, publishes it
    under [StoreContext], registers the client-only task that reloads the
    persisted theme, and composes the page shell.

    JavaScript objects are finite maps from property names to values,
    stores live in a heap and are handled through their location, and the
    hooks of the component are computations in a state monad over the
    state of one render. *)

From stdpp Require Import gmap strings list fin_maps.
From Stdlib Require Import ZArith.

Open Scope string_scope.
Open Scope list_scope.

(** ** JavaScript values

    [localStorage.getItem] returns either a string or [null]; these are
    the only values the layout ever stores. *)

Inductive value : Type :=
| VNull
| VStr (s : string).

#[global] Instance value_eq_dec : EqDecision value.
Proof. solve_decision. Defined.

(** ** The request handler *)

Module Http.

(** The part of a request the handler could look at. *)
Record Request : Type := {
  pathname : string;
  method   : string;
  body     : option string
}.

(** The response under construction. [cache] holds the directives of
    the last [cacheControl] call. *)
Record Response : Type := {
  cache   : gmap string Z;
  headers : gmap string string;
  status  : Z
}.

(** [cacheControl(options)] of the request event. *)
Definition cacheControl (options : gmap string Z) (r : Response) : Response :=
  {| cache := options; headers := headers r; status := status r |}.

(** [export const onGet: RequestHandler = async ({ cacheControl }) => ...] *)
Definition onGet (_ : Request) (r : Response) : Response :=
  cacheControl
    (<["maxAge" := 5%Z]>
       (<["staleWhileRevalidate" := (60 * 60 * 24 * 7)%Z]> ∅))
    r.

End Http.

(** ** Stores, client storage and the render state *)

Abbreviation loc := positive.

(** A subscription: the component [sub_component] read property
    [sub_prop] of the store at [sub_store] during its last render. *)
Record Sub : Type := {
  sub_store     : loc;
  sub_prop      : string;
  sub_component : string
}.

#[global] Instance Sub_eq_dec : EqDecision Sub.
Proof. solve_decision. Defined.

(** What client code runs against: the heap of store objects, the
    browser's [localStorage], the subscriptions taken by rendered
    components, and the queue of components scheduled for re-render. *)
Record World : Type := {
  heap         : gmap loc (gmap string value);
  localStorage : gmap string string;
  subs         : list Sub;
  notified     : list string
}.

(** What a hook keeps in its slot of the component between renders. *)
Inductive Slot : Type :=
| SStore (l : loc)
| STrue
| STask.

(** The state of the layout component across its renders: the world, the
    slots of its hooks ([seq], a JavaScript array) with the index of the
    next hook, the contexts it provides, and the visible tasks it has
    registered and that have not run yet. *)
Record Render : Type := {
  world    : World;
  seq      : gmap nat Slot;
  cursor   : nat;
  contexts : gmap string loc;
  tasks    : list (World → World)
}.

Definition Hook (A : Type) : Type := Render → A * Render.

Definition ret {A} (a : A) : Hook A := λ r, (a, r).

Definition bind {A B} (m : Hook A) (k : A → Hook B) : Hook B :=
  λ r, let (a, r') := m r in k a r'.

Notation "'let*' x ':=' m 'in' k" := (bind m (λ x, k))
  (at level 10, x name, m at level 100, k at level 200).
Notation "m ';;' k" := (bind m (λ _, k))
  (at level 100, k at level 200, right associativity).

(** ** The framework's operations *)

Module Qwik.

(** [localStorage.getItem(key)]: the stored string, or [null]. *)
Definition getItem (key : string) (w : World) : value :=
  match localStorage w !! key with
  | Some s => VStr s
  | None => VNull
  end.

(** Reading [store.prop]; [None] is JavaScript's [undefined]. *)
Definition get (store : loc) (prop : string) (w : World) : option value :=
  heap w !! store ≫= λ o, o !! prop.

(** The components subscribed to [store.prop], in subscription order. *)
Definition subscribers (store : loc) (prop : string) (sb : list Sub) : list string :=
  sub_component <$>
    filter (λ s, sub_store s = store ∧ sub_prop s = prop) sb.

(** The components a write of [v] to [store.prop] schedules: the
    subscribers of the property when the write changes its value, nobody
    when the property already holds [v]. *)
Definition notifySubs (store : loc) (prop : string) (v : value) (w : World) : list string :=
  match heap w !! store with
  | Some o => if decide (o !! prop = Some v) then [] else subscribers store prop (subs w)
  | None => []
  end.

(** The reactive store of the framework, which is not part of this
    repository. Writing [store.prop = v] replaces the property and, when
    the value is a new one, schedules for re-render every component that
    dereferenced the property during its last render. *)
Definition set (store : loc) (prop : string) (v : value) (w : World) : World :=
  {| heap := alter (λ o, <[prop := v]> o) store (heap w);
     localStorage := localStorage w;
     subs := subs w;
     notified := notified w ++ notifySubs store prop v w |}.

(** Every hook takes the next slot of the component: it gets the slot's
    index and what an earlier render left there. *)
Definition useSequentialScope : Hook (nat * option Slot) :=
  λ r, ((cursor r, seq r !! cursor r),
        {| world := world r; seq := seq r; cursor := S (cursor r);
           contexts := contexts r; tasks := tasks r |}).

Definition setSlot (i : nat) (s : Slot) : Hook unit :=
  λ r, (tt, {| world := world r; seq := <[i := s]> (seq r); cursor := cursor r;
               contexts := contexts r; tasks := tasks r |}).

(** Allocation of a store object at an unused location. *)
Definition alloc (o : gmap string value) : Hook loc :=
  λ r,
    let w := world r in
    let l := fresh (dom (heap w)) in
    (l, {| world := {| heap := <[l := o]> (heap w);
                       localStorage := localStorage w;
                       subs := subs w;
                       notified := notified w |};
           seq := seq r; cursor := cursor r;
           contexts := contexts r; tasks := tasks r |}).

(** [useStore(initial)]: the first render creates the store and keeps it
    in the slot; a later render returns the store of the slot. Hooks run
    in the same order in every render, so the slot of [useStore] never
    holds anything but a store. *)
Definition useStore (initial : gmap string value) : Hook loc :=
  let* sc := useSequentialScope in
  match sc.2 with
  | Some (SStore l) => ret l
  | _ =>
      let* l := alloc initial in
      setSlot sc.1 (SStore l) ;;
      ret l
  end.

(** [createContextId(name)]. *)
Definition createContextId (name : string) : string := name.

(** [useContextProvider(id, store)]: binds the context on the first
    render only. *)
Definition useContextProvider (id : string) (store : loc) : Hook unit :=
  let* sc := useSequentialScope in
  match sc.2 with
  | Some _ => ret tt
  | None =>
      (λ r, (tt, {| world := world r; seq := seq r; cursor := cursor r;
                    contexts := <[id := store]> (contexts r);
                    tasks := tasks r |})) ;;
      setSlot sc.1 STrue
  end.

(** [useContext(id)], as a descendant of the provider calls it. *)
Definition useContext (id : string) (r : Render) : option loc :=
  contexts r !! id.

(** [useVisibleTask$(task)]: the first render registers the task; it
    runs later, in the browser, once the component is visible. *)
Definition useVisibleTask (task : World → World) : Hook unit :=
  let* sc := useSequentialScope in
  match sc.2 with
  | Some _ => ret tt
  | None =>
      (λ r, (tt, {| world := world r; seq := seq r; cursor := cursor r;
                    contexts := contexts r;
                    tasks := tasks r ++ [task] |})) ;;
      setSlot sc.1 STask
  end.

(** One invocation of a component function: its hooks are numbered
    from 0. *)
Definition invoke {A} (component : Hook A) : Hook A :=
  λ r, component {| world := world r; seq := seq r; cursor := 0;
                    contexts := contexts r; tasks := tasks r |}.

(** The page reaches the browser: client storage [ls] is at hand and the
    rendered descendants have left the subscriptions [sb]. *)
Definition deliver (ls : gmap string string) (sb : list Sub) (r : Render) : Render :=
  {| world := {| heap := heap (world r); localStorage := ls;
                 subs := sb; notified := notified (world r) |};
     seq := seq r; cursor := cursor r;
     contexts := contexts r; tasks := tasks r |}.

(** The component becomes visible: each registered task runs once, in
    registration order. *)
Definition runVisibleTasks (r : Render) : Render :=
  {| world := foldl (λ w task, task w) (world r) (tasks r);
     seq := seq r; cursor := cursor r;
     contexts := contexts r; tasks := [] |}.

End Qwik.

(** ** The rendered tree *)

#[warnings="-register-all"]
Inductive JSXNode : Type :=
| JElement (tag class : string) (children : list JSXNode)
| JComponent (name : string)
| JSlot
| JFalse.

(** [flag && node] in a JSX child position: the node when the flag
    holds, the value [false] otherwise. *)
Definition jsx_and (flag : bool) (node : JSXNode) : JSXNode :=
  if flag then node else JFalse.

(** What a tree puts on the page: its components and slots in document
    order. The value [false] renders nothing. *)
Fixpoint rendered (n : JSXNode) : list JSXNode :=
  match n with
  | JElement _ _ children => concat (map rendered children)
  | JComponent name => [JComponent name]
  | JSlot => [JSlot]
  | JFalse => []
  end.

(** ** The layout *)

(** [road-plan.config]: the file is not among the sources, so the
    configuration is a parameter of the layout. *)
Record LoadingBarConfig : Type := { enabled : bool }.
Record Config : Type := { loadingBar : LoadingBarConfig }.

Module Layout.

(** [type Store = { theme: "light" | "dark" | "system" }] *)
Definition Store_theme : list value :=
  [VStr "light"; VStr "dark"; VStr "system"].

(** [export const StoreContext = createContextId<Store>("Store")] *)
Definition StoreContext : string := Qwik.createContextId "Store".

(** The body of the visible task:
    [const theme = localStorage.getItem("theme") as Store['theme'];
     store.theme = theme;] *)
Definition reconcile (store : loc) : World → World :=
  λ w,
    let theme := Qwik.getItem "theme" w in
    Qwik.set store "theme" theme w.

(** [export default component$(() => { ... })] *)
Definition layout (config : Config) : Hook JSXNode :=
  let* store := Qwik.useStore {["theme" := VStr "light"]} in
  Qwik.useContextProvider StoreContext store ;;
  Qwik.useVisibleTask (reconcile store) ;;
  ret (JElement "div" "app-layout"
         [ jsx_and (enabled (loadingBar config)) (JComponent "LoadingBar");
           JComponent "Header";
           JElement "main" "" [JSlot];
           JComponent "Footer" ]).

(** The JSX expression of [layout], as a function of the configuration
    alone. *)
Definition shell (config : Config) : JSXNode :=
  JElement "div" "app-layout"
    [ jsx_and (enabled (loadingBar config)) (JComponent "LoadingBar");
      JComponent "Header";
      JElement "main" "" [JSlot];
      JComponent "Footer" ].

(** The state before the first render of a page. *)
Definition initial : Render :=
  {| world := {| heap := ∅; localStorage := ∅; subs := []; notified := [] |};
     seq := ∅; cursor := 0; contexts := ∅; tasks := [] |}.

(** The page lifecycle: the server renders the layout once; the browser
    takes the page over with its storage and then runs the visible
    task. *)
Definition serverRender (config : Config) : JSXNode * Render :=
  Qwik.invoke (layout config) initial.

Definition hydrate (ls : gmap string string) (sb : list Sub) (r : Render) : Render :=
  Qwik.runVisibleTasks (Qwik.deliver ls sb r).

(** An assignment [store.theme = v] made by client code that holds the
    store, seen from the state of the layout. *)
Definition assignTheme (store : loc) (v : value) (r : Render) : Render :=
  {| world := Qwik.set store "theme" v (world r);
     seq := seq r; cursor := cursor r;
     contexts := contexts r; tasks := tasks r |}.

(** The theme of the store published under [StoreContext]. *)
Definition theme (r : Render) : option value :=
  Qwik.useContext StoreContext r ≫= λ store, Qwik.get store "theme" (world r).

End Layout.

(** * Properties *)

Import Layout.

(** ** Stores and the visible task *)

Section store_facts.
Implicit Types (w : World) (l store : loc) (p : string) (v : value).

Lemma get_set_eq l p v w :
  is_Some (heap w !! l) → Qwik.get l p (Qwik.set l p v w) = Some v.
Proof.
  intros [o Ho]. unfold Qwik.get, Qwik.set; simpl.
  rewrite lookup_alter_eq, Ho. simpl. apply lookup_insert_eq.
Qed.

Lemma get_set_other_prop l p p' v w :
  p ≠ p' → Qwik.get l p' (Qwik.set l p v w) = Qwik.get l p' w.
Proof.
  intros Hp. unfold Qwik.get, Qwik.set; simpl.
  rewrite lookup_alter_eq. destruct (heap w !! l) as [o|]; simpl; [|done].
  by rewrite lookup_insert_ne.
Qed.

Lemma heap_set_other_store l l' p v w :
  l ≠ l' → heap (Qwik.set l p v w) !! l' = heap w !! l'.
Proof. intros Hl. unfold Qwik.set; simpl. by rewrite lookup_alter_ne. Qed.

Lemma heap_set_set l p v v' w :
  heap (Qwik.set l p v (Qwik.set l p v' w)) = heap (Qwik.set l p v w).
Proof.
  unfold Qwik.set; simpl. apply map_eq; intros i.
  destruct (decide (l = i)) as [->|Hne].
  - rewrite !lookup_alter_eq. destruct (heap w !! i) as [o|]; simpl; [|done].
    by rewrite insert_insert_eq.
  - by rewrite !lookup_alter_ne.
Qed.

Lemma getItem_set key l p v w :
  Qwik.getItem key (Qwik.set l p v w) = Qwik.getItem key w.
Proof. reflexivity. Qed.

Lemma reconcile_theme store w :
  is_Some (heap w !! store) →
  Qwik.get store "theme" (reconcile store w) = Some (Qwik.getItem "theme" w).
Proof. intros H. unfold reconcile. by apply get_set_eq. Qed.

End store_facts.

(** ** Subscriptions *)

Section subscriptions.
Context {A : Type} `{EqDecision A}.

Lemma filter_eq_absent (x : A) (xs : list A) :
  x ∉ xs → filter (λ y, y = x) xs = [].
Proof.
  induction xs as [|y xs IH]; intros Hx; [done|].
  apply not_elem_of_cons in Hx as [Hne Hx].
  rewrite filter_cons_False by congruence. auto.
Qed.

Lemma filter_eq_NoDup (x : A) (xs : list A) :
  NoDup xs → x ∈ xs → length (filter (λ y, y = x) xs) = 1.
Proof.
  induction 1 as [|y xs Hy Hnd IH]; intros Hx.
  - by apply elem_of_nil in Hx.
  - destruct (decide (y = x)) as [->|Hne].
    + rewrite filter_cons_True by done. simpl.
      by rewrite filter_eq_absent.
    + rewrite filter_cons_False by done.
      apply elem_of_cons in Hx as [?|Hx]; [congruence|auto].
Qed.

End subscriptions.

Lemma subscribers_count (l : loc) (p c : string) (sb : list Sub) :
  length (filter (λ x, x = c) (Qwik.subscribers l p sb)) =
  length (filter (λ s, s = {| sub_store := l; sub_prop := p; sub_component := c |}) sb).
Proof.
  unfold Qwik.subscribers.
  induction sb as [|[l' p' c'] sb IH]; [done|].
  destruct (decide (l' = l ∧ p' = p)) as [[-> ->]|Hne].
  - rewrite (filter_cons_True (λ s, sub_store s = l ∧ sub_prop s = p)) by done.
    rewrite fmap_cons; simpl sub_component.
    destruct (decide (c' = c)) as [->|Hc].
    + rewrite !filter_cons_True by done. simpl. by rewrite IH.
    + rewrite !filter_cons_False by congruence. done.
  - rewrite (filter_cons_False (λ s, sub_store s = l ∧ sub_prop s = p)) by done.
    rewrite filter_cons_False; [done|].
    intros [= -> -> ->]. by apply Hne.
Qed.

Lemma subscribers_once (l : loc) (p c : string) (sb : list Sub) :
  NoDup sb →
  {| sub_store := l; sub_prop := p; sub_component := c |} ∈ sb →
  length (filter (λ x, x = c) (Qwik.subscribers l p sb)) = 1.
Proof. intros Hnd Hin. rewrite subscribers_count. by apply filter_eq_NoDup. Qed.

(** ** The first render *)

Lemma invoke_layout_first config r :
  seq r = ∅ →
  let l := fresh (dom (heap (world r))) in
  Qwik.invoke (layout config) r =
    (shell config,
     {| world := {| heap := <[l := {["theme" := VStr "light"]}]> (heap (world r));
                    localStorage := localStorage (world r);
                    subs := subs (world r);
                    notified := notified (world r) |};
        seq := <[2 := STask]> (<[1 := STrue]> (<[0 := SStore l]> ∅));
        cursor := 3;
        contexts := <[StoreContext := l]> (contexts r);
        tasks := tasks r ++ [reconcile l] |}).
Proof.
  intros Hseq l.
  unfold Qwik.invoke, layout, Qwik.useStore, Qwik.useContextProvider,
    Qwik.useVisibleTask, Qwik.useSequentialScope, Qwik.alloc, Qwik.setSlot,
    bind, ret; simpl.
  rewrite Hseq, lookup_empty; simpl.
  rewrite lookup_insert_ne, lookup_empty by done; simpl.
  rewrite !lookup_insert_ne, lookup_empty by done; simpl.
  reflexivity.
Qed.

Lemma invoke_layout_tree config r :
  (Qwik.invoke (layout config) r).1 = shell config.
Proof.
  unfold Qwik.invoke, layout, Qwik.useStore, Qwik.useContextProvider,
    Qwik.useVisibleTask, Qwik.useSequentialScope, Qwik.alloc, Qwik.setSlot,
    bind, ret; simpl.
  destruct (seq r !! 0) as [[l| |]|]; simpl.
  all: repeat match goal with
         | |- context [match ?m !! ?i with _ => _ end] =>
             destruct (m !! i); simpl
         end.
  all: reflexivity.
Qed.

Lemma fresh_loc_unused (h : gmap loc (gmap string value)) :
  h !! fresh (dom h) = None.
Proof. apply not_elem_of_dom, is_fresh. Qed.

Lemma serverRender_eq config :
  serverRender config =
    (shell config,
     {| world := {| heap := {[1%positive := {["theme" := VStr "light"]}]};
                    localStorage := ∅; subs := []; notified := [] |};
        seq := <[2 := STask]> (<[1 := STrue]> (<[0 := SStore 1]> ∅));
        cursor := 3;
        contexts := {[StoreContext := 1%positive]};
        tasks := [reconcile 1] |}).
Proof. unfold serverRender. by rewrite invoke_layout_first. Qed.

Lemma hydrate_serverRender config ls sb :
  world (hydrate ls sb (serverRender config).2) =
    reconcile 1 {| heap := {[1%positive := {["theme" := VStr "light"]}]};
                   localStorage := ls; subs := sb; notified := [] |}.
Proof. by rewrite serverRender_eq. Qed.

Lemma theme_hydrate_serverRender config ls sb :
  theme (hydrate ls sb (serverRender config).2) =
    Some (match ls !! "theme" with Some s => VStr s | None => VNull end).
Proof.
  unfold theme, Qwik.useContext.
  rewrite hydrate_serverRender, serverRender_eq; simpl.
  unfold StoreContext, Qwik.createContextId.
  rewrite lookup_singleton_eq; simpl.
  rewrite reconcile_theme by (simpl; rewrite lookup_singleton_eq; eauto).
  reflexivity.
Qed.

Lemma notified_hydrate_serverRender config ls sb :
  notified (world (hydrate ls sb (serverRender config).2)) =
    if decide (ls !! "theme" = Some "light") then []
    else Qwik.subscribers 1 "theme" sb.
Proof.
  rewrite hydrate_serverRender.
  unfold reconcile, Qwik.set, Qwik.notifySubs, Qwik.getItem; simpl.
  rewrite lookup_singleton_eq, lookup_singleton_eq.
  destruct (ls !! "theme") as [s|]; repeat case_decide; congruence.
Qed.

(** ** The cache policy *)

(** C1: whatever the request and the response so far, [onGet] leaves the
    response with exactly the two cache directives [maxAge = 5] and
    [staleWhileRevalidate = 604800], and changes nothing else of it. *)
Theorem onGet_cache_policy (req req' : Http.Request) (resp : Http.Response) :
  let resp' := Http.onGet req resp in
  Http.cache resp' !! "maxAge" = Some 5%Z
  ∧ Http.cache resp' !! "staleWhileRevalidate" = Some 604800%Z
  ∧ dom (Http.cache resp') = ({["maxAge"; "staleWhileRevalidate"]} : gset string)
  ∧ size (Http.cache resp') = 2
  ∧ Http.headers resp' = Http.headers resp
  ∧ Http.status resp' = Http.status resp
  ∧ Http.onGet req' resp = resp'.
Proof.
  unfold Http.onGet, Http.cacheControl; simpl.
  split_and!; reflexivity.
Qed.

(** ** The preference store *)

(** C5: a first render of the layout, from any state of the page,
    creates exactly one store, at a location that was unused, with
    [theme] set to ["light"]; the store is the one published under
    [StoreContext], the visible task is registered but has not run, and
    the theme is still ["light"] when the browser takes the page over. *)
Theorem first_render_creates_light_store
    (config : Config) (r : Render) (ls : gmap string string) (sb : list Sub) :
  seq r = ∅ →
  let r' := (Qwik.invoke (layout config) r).2 in
  ∃ l : loc,
    heap (world r) !! l = None
    ∧ heap (world r') = <[l := {["theme" := VStr "light"]}]> (heap (world r))
    ∧ size (heap (world r')) = S (size (heap (world r)))
    ∧ Qwik.useContext StoreContext r' = Some l
    ∧ tasks r' = tasks r ++ [reconcile l]
    ∧ theme r' = Some (VStr "light")
    ∧ theme (Qwik.deliver ls sb r') = Some (VStr "light").
Proof.
  intros Hseq r'. subst r'. rewrite invoke_layout_first by done; simpl.
  set (l := fresh (dom (heap (world r)))).
  assert (heap (world r) !! l = None) as Hl by apply fresh_loc_unused.
  exists l. unfold theme, Qwik.useContext, Qwik.get; simpl.
  rewrite lookup_insert_eq; simpl. rewrite lookup_insert_eq; simpl.
  split_and!; try done.
  by apply map_size_insert_None.
Qed.

Lemma first_render_creates_light_store_witness :
  ∃ l : loc,
    heap (world initial) !! l = None
    ∧ heap (world (serverRender {| loadingBar := {| enabled := true |} |}).2)
      = <[l := {["theme" := VStr "light"]}]> (heap (world initial))
    ∧ size (heap (world (serverRender {| loadingBar := {| enabled := true |} |}).2))
      = S (size (heap (world initial)))
    ∧ Qwik.useContext StoreContext
        (serverRender {| loadingBar := {| enabled := true |} |}).2 = Some l
    ∧ tasks (serverRender {| loadingBar := {| enabled := true |} |}).2
      = tasks initial ++ [reconcile l]
    ∧ theme (serverRender {| loadingBar := {| enabled := true |} |}).2
      = Some (VStr "light")
    ∧ theme (Qwik.deliver {["theme" := "dark"]} []
               (serverRender {| loadingBar := {| enabled := true |} |}).2)
      = Some (VStr "light").
Proof.
  apply (first_render_creates_light_store
           {| loadingBar := {| enabled := true |} |} initial
           {["theme" := "dark"]} []).
  reflexivity.
Defined.

(** ** The visible task *)

(** C2: when client storage holds nothing under ["theme"], the read gives
    [null] and the task still assigns it: the theme of the store, ["light"]
    after the server render, is [null] after hydration. *)
Theorem hydrate_without_persisted_theme
    (config : Config) (ls : gmap string string) (sb : list Sub) :
  ls !! "theme" = None →
  let r := (serverRender config).2 in
  theme r = Some (VStr "light")
  ∧ Qwik.getItem "theme" (world (Qwik.deliver ls sb r)) = VNull
  ∧ theme (hydrate ls sb r) = Some VNull
  ∧ theme (hydrate ls sb r) ≠ Some (VStr "light").
Proof.
  intros Hls r. subst r. rewrite theme_hydrate_serverRender, Hls.
  rewrite serverRender_eq.
  split_and!; try done.
  unfold Qwik.getItem; simpl. by rewrite Hls.
Qed.

Lemma hydrate_without_persisted_theme_witness :
  theme (serverRender {| loadingBar := {| enabled := false |} |}).2
    = Some (VStr "light")
  ∧ Qwik.getItem "theme"
      (world (Qwik.deliver {["lang" := "en"]} []
                (serverRender {| loadingBar := {| enabled := false |} |}).2))
    = VNull
  ∧ theme (hydrate {["lang" := "en"]} []
             (serverRender {| loadingBar := {| enabled := false |} |}).2)
    = Some VNull
  ∧ theme (hydrate {["lang" := "en"]} []
             (serverRender {| loadingBar := {| enabled := false |} |}).2)
    ≠ Some (VStr "light").
Proof.
  apply (hydrate_without_persisted_theme
           {| loadingBar := {| enabled := false |} |} {["lang" := "en"]} []).
  reflexivity.
Defined.

(** C3: the theme of the store does not stay within the values of its
    type. With ["blue"] persisted under ["theme"], the store holds
    ["light"] after the server render and ["blue"] after hydration, which
    is neither one of ["light"], ["dark"], ["system"] nor unset. *)
Theorem hydrate_unknown_theme_escapes_type (config : Config) :
  let r := (serverRender config).2 in
  let r' := hydrate {["theme" := "blue"]} [] r in
  theme r = Some (VStr "light")
  ∧ theme r' = Some (VStr "blue")
  ∧ (VStr "blue" ∉ Store_theme)
  ∧ theme r' ≠ Some VNull
  ∧ theme r' ≠ None.
Proof.
  intros r r'. subst r r'. rewrite theme_hydrate_serverRender, serverRender_eq.
  split_and!; try done.
  unfold Store_theme. rewrite !elem_of_cons, elem_of_nil.
  intros [?|[?|[?|[]]]]; discriminate.
Qed.

(** C4, as the code has it: a string persisted under ["theme"], whatever
    it is, becomes the theme of the store as it stands. A component
    subscribed to the theme of that store is scheduled for re-render
    exactly once by the hydration when the string differs from the
    server default ["light"], and is not scheduled when the string is
    ["light"], since the store then keeps the value it had. *)
Theorem hydrate_with_persisted_theme
    (config : Config) (ls : gmap string string) (sb : list Sub)
    (s component : string) (store : loc) :
  ls !! "theme" = Some s →
  Qwik.useContext StoreContext (serverRender config).2 = Some store →
  NoDup sb →
  {| sub_store := store; sub_prop := "theme"; sub_component := component |} ∈ sb →
  let r' := hydrate ls sb (serverRender config).2 in
  theme r' = Some (VStr s)
  ∧ notified (world r')
    = (if decide (s = "light") then [] else Qwik.subscribers store "theme" sb)
  ∧ length (filter (λ c, c = component) (notified (world r')))
    = (if decide (s = "light") then 0 else 1).
Proof.
  intros Hls Hctx Hnd Hsub r'. subst r'.
  rewrite theme_hydrate_serverRender, notified_hydrate_serverRender, Hls.
  rewrite serverRender_eq in Hctx. unfold Qwik.useContext in Hctx; simpl in Hctx.
  unfold StoreContext, Qwik.createContextId in Hctx.
  rewrite lookup_singleton_eq in Hctx. injection Hctx as <-.
  split; [done|].
  destruct (decide (s = "light")) as [->|Hne].
  - rewrite decide_True by done. done.
  - rewrite decide_False by congruence. split; [done|].
    by apply subscribers_once.
Qed.

Lemma hydrate_with_persisted_theme_witness :
  theme (hydrate {["theme" := "dark"]}
           [ {| sub_store := 1; sub_prop := "theme"; sub_component := "Header" |} ]
           (serverRender {| loadingBar := {| enabled := true |} |}).2)
    = Some (VStr "dark")
  ∧ notified (world (hydrate {["theme" := "dark"]}
           [ {| sub_store := 1; sub_prop := "theme"; sub_component := "Header" |} ]
           (serverRender {| loadingBar := {| enabled := true |} |}).2))
    = (if decide ("dark" = "light") then []
       else Qwik.subscribers 1 "theme"
        [ {| sub_store := 1; sub_prop := "theme"; sub_component := "Header" |} ])
  ∧ length (filter (λ c, c = "Header")
      (notified (world (hydrate {["theme" := "dark"]}
           [ {| sub_store := 1; sub_prop := "theme"; sub_component := "Header" |} ]
           (serverRender {| loadingBar := {| enabled := true |} |}).2))))
    = (if decide ("dark" = "light") then 0 else 1).
Proof.
  apply (hydrate_with_persisted_theme
           {| loadingBar := {| enabled := true |} |} {["theme" := "dark"]}
           [ {| sub_store := 1; sub_prop := "theme"; sub_component := "Header" |} ]
           "dark" "Header" 1).
  - reflexivity.
  - reflexivity.
  - apply NoDup_singleton.
  - apply list_elem_of_singleton. reflexivity.
Defined.

(** With ["light"] persisted the hypotheses of C4 hold for a subscribed
    header, the theme is ["light"] after hydration as before it, and the
    header is not scheduled at all. *)
Lemma hydrate_light_notifies_nobody :
  ({["theme" := "light"]} : gmap string string) !! "theme" = Some "light"
  ∧ Qwik.useContext StoreContext
      (serverRender {| loadingBar := {| enabled := true |} |}).2 = Some 1%positive
  ∧ NoDup [ {| sub_store := 1; sub_prop := "theme"; sub_component := "Header" |} ]
  ∧ {| sub_store := 1; sub_prop := "theme"; sub_component := "Header" |}
      ∈ [ {| sub_store := 1; sub_prop := "theme"; sub_component := "Header" |} ]
  ∧ theme (hydrate {["theme" := "light"]}
             [ {| sub_store := 1; sub_prop := "theme"; sub_component := "Header" |} ]
             (serverRender {| loadingBar := {| enabled := true |} |}).2)
    = Some (VStr "light")
  ∧ notified (world (hydrate {["theme" := "light"]}
             [ {| sub_store := 1; sub_prop := "theme"; sub_component := "Header" |} ]
             (serverRender {| loadingBar := {| enabled := true |} |}).2))
    = []
  ∧ length (filter (λ c, c = "Header")
      (notified (world (hydrate {["theme" := "light"]}
             [ {| sub_store := 1; sub_prop := "theme"; sub_component := "Header" |} ]
             (serverRender {| loadingBar := {| enabled := true |} |}).2))))
    ≠ 1.
Proof.
  split_and!; try reflexivity.
  - apply NoDup_singleton.
  - apply list_elem_of_singleton. reflexivity.
  - discriminate.
Qed.

(** C6: running the visible task a second time leaves the heap of stores,
    hence the preference store, as the first run left it; client storage
    is the same before both runs. *)
Theorem reconcile_idempotent (store : loc) (w : World) :
  heap (reconcile store (reconcile store w)) = heap (reconcile store w)
  ∧ localStorage (reconcile store w) = localStorage w
  ∧ Qwik.get store "theme" (reconcile store (reconcile store w))
    = Qwik.get store "theme" (reconcile store w).
Proof.
  assert (heap (reconcile store (reconcile store w)) = heap (reconcile store w))
    as Hheap.
  { unfold reconcile. rewrite getItem_set. apply heap_set_set. }
  split_and!; [done|done|].
  unfold Qwik.get. by rewrite Hheap.
Qed.

(** ** The shell *)

(** C7: whatever the state of the page, the layout renders, in this
    order, the loading bar when [loadingBar.enabled] holds and nothing
    otherwise, then the header, the slot and the footer; the loading bar
    is on the page exactly when the flag holds. *)
Theorem layout_shell_composition (config : Config) (r : Render) :
  let tree := (Qwik.invoke (layout config) r).1 in
  rendered tree =
    (if enabled (loadingBar config) then [JComponent "LoadingBar"] else [])
    ++ [JComponent "Header"; JSlot; JComponent "Footer"]
  ∧ (JComponent "LoadingBar" ∈ rendered tree ↔ enabled (loadingBar config) = true).
Proof.
  intros tree. subst tree. rewrite invoke_layout_tree.
  destruct config as [[flag]]; simpl. destruct flag; simpl.
  - split; [done|]. split; [done|]. intros _. apply list_elem_of_here.
  - split; [done|]. split; [|done].
    rewrite !elem_of_cons, elem_of_nil. intros [?|[?|[?|[]]]]; discriminate.
Qed.

(** C9: the tree of the layout is a function of the configuration alone.
    Two renders in any two states of the page give the same tree; so do
    renders after the theme of a store was assigned two different values,
    and a render after hydration gives the tree of the server render,
    whatever client storage holds. *)
Theorem layout_tree_ignores_theme
    (config : Config) (r r' : Render) (store : loc) (v v' : value)
    (ls : gmap string string) (sb : list Sub) :
  (Qwik.invoke (layout config) r).1 = (Qwik.invoke (layout config) r').1
  ∧ (Qwik.invoke (layout config) (assignTheme store v r)).1
    = (Qwik.invoke (layout config) (assignTheme store v' r)).1
  ∧ (Qwik.invoke (layout config) (hydrate ls sb (serverRender config).2)).1
    = (serverRender config).1.
Proof.
  unfold serverRender. by rewrite !invoke_layout_tree.
Qed.

(** ** The context *)

(** C8: after a first render, two resolutions of [StoreContext] give the
    same store location, and a theme assigned through one handle is what
    a read through the other returns. *)
Theorem context_handles_share_store
    (config : Config) (r : Render) (h1 h2 : loc) (v : value) :
  seq r = ∅ →
  let r' := (Qwik.invoke (layout config) r).2 in
  Qwik.useContext StoreContext r' = Some h1 →
  Qwik.useContext StoreContext r' = Some h2 →
  h1 = h2
  ∧ Qwik.get h2 "theme" (world r') = Some (VStr "light")
  ∧ Qwik.get h2 "theme" (Qwik.set h1 "theme" v (world r')) = Some v
  ∧ Qwik.get h2 "theme" (world (assignTheme h1 v r')) = Some v.
Proof.
  intros Hseq r' H1 H2. subst r'.
  rewrite invoke_layout_first in * by done.
  unfold Qwik.useContext in *; simpl in *.
  rewrite lookup_insert_eq in H1, H2.
  injection H1 as <-. injection H2 as <-.
  split; [done|].
  assert (∀ v, Qwik.get (fresh (dom (heap (world r)))) "theme"
             (Qwik.set (fresh (dom (heap (world r)))) "theme" v
                {| heap := <[fresh (dom (heap (world r))) :=
                              {["theme" := VStr "light"]}]> (heap (world r));
                   localStorage := localStorage (world r);
                   subs := subs (world r);
                   notified := notified (world r) |}) = Some v) as Hset.
  { intros u. apply get_set_eq; simpl. rewrite lookup_insert_eq. eauto. }
  split_and!; [|apply Hset|apply Hset].
  unfold Qwik.get; simpl. by rewrite lookup_insert_eq.
Qed.

Lemma context_handles_share_store_witness :
  (1%positive = 1%positive)
  ∧ Qwik.get 1 "theme"
      (world (Qwik.invoke (layout {| loadingBar := {| enabled := true |} |}) initial).2)
    = Some (VStr "light")
  ∧ Qwik.get 1 "theme"
      (Qwik.set 1 "theme" (VStr "dark")
         (world (Qwik.invoke (layout {| loadingBar := {| enabled := true |} |}) initial).2))
    = Some (VStr "dark")
  ∧ Qwik.get 1 "theme"
      (world (assignTheme 1 (VStr "dark")
         (Qwik.invoke (layout {| loadingBar := {| enabled := true |} |}) initial).2))
    = Some (VStr "dark").
Proof.
  apply (context_handles_share_store
           {| loadingBar := {| enabled := true |} |} initial 1 1 (VStr "dark"));
    reflexivity.
Defined.

(** ** What the visible task leaves alone *)

(** C10: the visible task changes property [theme] of its store and
    nothing else. Client storage and the subscriptions are as before,
    every other store and every other property of the store are as
    before, and the resulting heap depends on client storage through the
    key ["theme"] only. Over the page lifecycle, hydration returns client
    storage as it received it, keeps the contexts and the hook slots, and
    a render after it gives the tree of the server render. *)
Theorem reconcile_frame
    (store l : loc) (p : string) (w w2 : World)
    (config : Config) (ls : gmap string string) (sb : list Sub) :
  l ≠ store →
  p ≠ "theme" →
  heap w2 = heap w →
  localStorage w2 !! "theme" = localStorage w !! "theme" →
  localStorage (reconcile store w) = localStorage w
  ∧ subs (reconcile store w) = subs w
  ∧ heap (reconcile store w)
    = alter (λ o, <["theme" := Qwik.getItem "theme" w]> o) store (heap w)
  ∧ heap (reconcile store w) !! l = heap w !! l
  ∧ Qwik.get store p (reconcile store w) = Qwik.get store p w
  ∧ heap (reconcile store w2) = heap (reconcile store w)
  ∧ localStorage (world (hydrate ls sb (serverRender config).2)) = ls
  ∧ contexts (hydrate ls sb (serverRender config).2)
    = contexts (serverRender config).2
  ∧ seq (hydrate ls sb (serverRender config).2) = seq (serverRender config).2
  ∧ (Qwik.invoke (layout config) (hydrate ls sb (serverRender config).2)).1
    = (serverRender config).1.
Proof.
  intros Hl Hp Hheap Hls.
  split_and!; try reflexivity.
  - unfold reconcile. by apply heap_set_other_store.
  - unfold reconcile. by apply get_set_other_prop.
  - unfold reconcile, Qwik.set, Qwik.getItem; simpl. by rewrite Hheap, Hls.
Qed.

Lemma reconcile_frame_witness :
  localStorage (reconcile 1
    {| heap := {[1%positive := {["theme" := VStr "light"]}]};
       localStorage := {["theme" := "dark"]}; subs := []; notified := [] |})
  = localStorage
    {| heap := {[1%positive := {["theme" := VStr "light"]}]};
       localStorage := {["theme" := "dark"]}; subs := []; notified := [] |}
  ∧ subs (reconcile 1
    {| heap := {[1%positive := {["theme" := VStr "light"]}]};
       localStorage := {["theme" := "dark"]}; subs := []; notified := [] |})
  = subs
    {| heap := {[1%positive := {["theme" := VStr "light"]}]};
       localStorage := {["theme" := "dark"]}; subs := []; notified := [] |}
  ∧ heap (reconcile 1
    {| heap := {[1%positive := {["theme" := VStr "light"]}]};
       localStorage := {["theme" := "dark"]}; subs := []; notified := [] |})
  = alter (λ o, <["theme" := Qwik.getItem "theme"
    {| heap := {[1%positive := {["theme" := VStr "light"]}]};
       localStorage := {["theme" := "dark"]}; subs := []; notified := [] |}]> o) 1%positive (heap
    {| heap := {[1%positive := {["theme" := VStr "light"]}]};
       localStorage := {["theme" := "dark"]}; subs := []; notified := [] |})
  ∧ heap (reconcile 1
    {| heap := {[1%positive := {["theme" := VStr "light"]}]};
       localStorage := {["theme" := "dark"]}; subs := []; notified := [] |}) !! 2%positive
  = heap
    {| heap := {[1%positive := {["theme" := VStr "light"]}]};
       localStorage := {["theme" := "dark"]}; subs := []; notified := [] |} !! 2%positive
  ∧ Qwik.get 1 "lang" (reconcile 1
    {| heap := {[1%positive := {["theme" := VStr "light"]}]};
       localStorage := {["theme" := "dark"]}; subs := []; notified := [] |})
  = Qwik.get 1 "lang"
    {| heap := {[1%positive := {["theme" := VStr "light"]}]};
       localStorage := {["theme" := "dark"]}; subs := []; notified := [] |}
  ∧ heap (reconcile 1
    {| heap := {[1%positive := {["theme" := VStr "light"]}]};
       localStorage := {["theme" := "dark"; "lang" := "en"]};
       subs := []; notified := [] |})
  = heap (reconcile 1
    {| heap := {[1%positive := {["theme" := VStr "light"]}]};
       localStorage := {["theme" := "dark"]}; subs := []; notified := [] |})
  ∧ localStorage (world (hydrate {["theme" := "dark"]} [] (serverRender {| loadingBar := {| enabled := true |} |}).2)) = {["theme" := "dark"]}
  ∧ contexts (hydrate {["theme" := "dark"]} [] (serverRender {| loadingBar := {| enabled := true |} |}).2)
    = contexts (serverRender {| loadingBar := {| enabled := true |} |}).2
  ∧ seq (hydrate {["theme" := "dark"]} [] (serverRender {| loadingBar := {| enabled := true |} |}).2)
    = seq (serverRender {| loadingBar := {| enabled := true |} |}).2
  ∧ (Qwik.invoke (layout {| loadingBar := {| enabled := true |} |}) (hydrate {["theme" := "dark"]} [] (serverRender {| loadingBar := {| enabled := true |} |}).2)).1
    = (serverRender {| loadingBar := {| enabled := true |} |}).1.
Proof.
  apply (reconcile_frame 1 2 "lang"
    {| heap := {[1%positive := {["theme" := VStr "light"]}]};
       localStorage := {["theme" := "dark"]}; subs := []; notified := [] |}
    {| heap := {[1%positive := {["theme" := VStr "light"]}]};
       localStorage := {["theme" := "dark"; "lang" := "en"]};
       subs := []; notified := [] |}
    {| loadingBar := {| enabled := true |} |} {["theme" := "dark"]} []).
  - discriminate.
  - discriminate.
  - reflexivity.
  - reflexivity.
Defined.

(** * Further properties of the layout *)

(** ** Later renders *)

Lemma invoke_layout_again config r l :
  seq r !! 0 = Some (SStore l) →
  is_Some (seq r !! 1) →
  is_Some (seq r !! 2) →
  Qwik.invoke (layout config) r =
    (shell config,
     {| world := world r; seq := seq r; cursor := 3;
        contexts := contexts r; tasks := tasks r |}).
Proof.
  intros H0 [s1 H1] [s2 H2].
  unfold Qwik.invoke, layout, Qwik.useStore, Qwik.useContextProvider,
    Qwik.useVisibleTask, Qwik.useSequentialScope, bind, ret; simpl.
  rewrite H0; simpl. rewrite H1; simpl. rewrite H2; simpl.
  reflexivity.
Qed.

(** X1: rendering the layout again changes nothing. After a first render,
    a second one returns the same tree and leaves the state of the page
    as it was: no second store is created, the context still names the
    first store, and the visible task is not registered a second time. *)
Theorem rerender_changes_nothing (config : Config) (r : Render) :
  seq r = ∅ →
  Qwik.invoke (layout config) (Qwik.invoke (layout config) r).2
  = Qwik.invoke (layout config) r.
Proof.
  intros Hseq. rewrite (invoke_layout_first config r) by done. simpl.
  rewrite (invoke_layout_again config _ (fresh (dom (heap (world r))))).
  - reflexivity.
  - reflexivity.
  - by eexists.
  - by eexists.
Qed.

Lemma rerender_changes_nothing_witness :
  Qwik.invoke (layout {| loadingBar := {| enabled := true |} |})
    (Qwik.invoke (layout {| loadingBar := {| enabled := true |} |}) initial).2
  = Qwik.invoke (layout {| loadingBar := {| enabled := true |} |}) initial.
Proof.
  apply (rerender_changes_nothing {| loadingBar := {| enabled := true |} |} initial).
  reflexivity.
Defined.

(** X2: the visible task runs once per page. A render after hydration
    leaves the hydrated state as it is, so the theme read from client
    storage is not reset to ["light"], no task is waiting, and a further
    pass over the visible tasks changes neither the stores nor the queue
    of components to re-render. *)
Theorem rerender_after_hydration
    (config : Config) (ls : gmap string string) (sb : list Sub) :
  let r := hydrate ls sb (serverRender config).2 in
  let r' := (Qwik.invoke (layout config) r).2 in
  r' = r
  ∧ theme r' = Some (match ls !! "theme" with Some s => VStr s | None => VNull end)
  ∧ tasks r' = []
  ∧ world (Qwik.runVisibleTasks r') = world r.
Proof.
  intros r r'.
  assert (r' = r) as ->.
  { subst r' r. rewrite serverRender_eq.
    rewrite (invoke_layout_again config _ 1); [done|done|by eexists..]. }
  subst r. rewrite theme_hydrate_serverRender.
  split_and!; done.
Qed.

(** ** What a render leaves alone *)

Lemma fresh_loc_ne (h : gmap loc (gmap string value)) l o :
  h !! l = Some o → fresh (dom h) ≠ l.
Proof.
  intros Hl Heq. pose proof (fresh_loc_unused h) as Hf.
  rewrite Heq in Hf. congruence.
Qed.



(** ** The store under hydration *)

(** X4: the visible task keeps the shape of the heap and of its store. No
    store appears or disappears, and a store that has a [theme] has the
    same properties after the task as before. *)
Theorem reconcile_keeps_store_shape
    (store : loc) (w : World) (o : gmap string value) :
  heap w !! store = Some o →
  is_Some (o !! "theme") →
  dom (heap (reconcile store w)) = dom (heap w)
  ∧ ∃ o', heap (reconcile store w) !! store = Some o' ∧ dom o' = dom o.
Proof.
  intros Ho Htheme. unfold reconcile, Qwik.set; simpl. split.
  - apply dom_alter_L.
  - exists (<["theme" := Qwik.getItem "theme" w]> o). split.
    + by rewrite lookup_alter_eq, Ho.
    + rewrite dom_insert_L. apply subseteq_union_1_L, singleton_subseteq_l.
      by apply elem_of_dom.
Qed.

Lemma reconcile_keeps_store_shape_witness :
  dom (heap (reconcile 1
    {| heap := {[1%positive := {["theme" := VStr "light"]}]};
       localStorage := {["theme" := "dark"]}; subs := []; notified := [] |}))
  = dom (heap
    {| heap := {[1%positive := {["theme" := VStr "light"]}]};
       localStorage := {["theme" := "dark"]}; subs := []; notified := [] |})
  ∧ ∃ o', heap (reconcile 1
    {| heap := {[1%positive := {["theme" := VStr "light"]}]};
       localStorage := {["theme" := "dark"]}; subs := []; notified := [] |})
      !! 1%positive = Some o'
    ∧ dom o' = dom ({["theme" := VStr "light"]} : gmap string value).
Proof.
  apply (reconcile_keeps_store_shape 1
    {| heap := {[1%positive := {["theme" := VStr "light"]}]};
       localStorage := {["theme" := "dark"]}; subs := []; notified := [] |}
    {["theme" := VStr "light"]}).
  - reflexivity.
  - by eexists.
Defined.

(** X5: after hydration the theme is a value of the type of [Store]
    exactly when client storage holds one of ["light"], ["dark"] and
    ["system"] under ["theme"]. *)
Theorem hydrated_theme_in_type_iff
    (config : Config) (ls : gmap string string) (sb : list Sub) :
  (∃ v, theme (hydrate ls sb (serverRender config).2) = Some v ∧ v ∈ Store_theme)
  ↔ (∃ s, ls !! "theme" = Some s ∧ s ∈ ["light"; "dark"; "system"]).
Proof.
  rewrite theme_hydrate_serverRender. unfold Store_theme. split.
  - intros (v & [= <-] & Hv). destruct (ls !! "theme") as [s|].
    + exists s. split; [done|].
      rewrite !elem_of_cons, elem_of_nil in Hv.
      rewrite !elem_of_cons, elem_of_nil.
      destruct Hv as [[= ->]|[[= ->]|[[= ->]|[]]]]; auto.
    + rewrite !elem_of_cons, elem_of_nil in Hv.
      destruct Hv as [?|[?|[?|[]]]]; discriminate.
  - intros (s & -> & Hs). exists (VStr s). split; [done|].
    rewrite !elem_of_cons, elem_of_nil in Hs.
    rewrite !elem_of_cons, elem_of_nil.
    destruct Hs as [->|[->|[->|[]]]]; auto.
Qed.

(** X6: when the store already holds what client storage holds under
    ["theme"], the visible task leaves every store as it is. *)
Theorem reconcile_same_theme_keeps_heap (store : loc) (w : World) :
  Qwik.get store "theme" w = Some (Qwik.getItem "theme" w) →
  heap (reconcile store w) = heap w.
Proof.
  unfold Qwik.get, reconcile, Qwik.set; simpl. intros Hget.
  destruct (heap w !! store) as [o|] eqn:Ho; simpl in Hget; [|done].
  apply map_eq; intros i. destruct (decide (store = i)) as [<-|Hne].
  - rewrite lookup_alter_eq, Ho; simpl. by rewrite insert_id.
  - by rewrite lookup_alter_ne.
Qed.

Lemma reconcile_same_theme_keeps_heap_witness :
  heap (reconcile 1
    {| heap := {[1%positive := {["theme" := VStr "light"]}]};
       localStorage := {["theme" := "light"]}; subs := []; notified := [] |})
  = heap
    {| heap := {[1%positive := {["theme" := VStr "light"]}]};
       localStorage := {["theme" := "light"]}; subs := []; notified := [] |}.
Proof.
  apply (reconcile_same_theme_keeps_heap 1
    {| heap := {[1%positive := {["theme" := VStr "light"]}]};
       localStorage := {["theme" := "light"]}; subs := []; notified := [] |}).
  reflexivity.
Defined.

Lemma theme_resolved (r : Render) (l : loc) :
  contexts r !! StoreContext = Some l →
  theme r = Qwik.get l "theme" (world r).
Proof. intros H. unfold theme, Qwik.useContext. by rewrite H. Qed.

(** X7: the visible task overwrites the theme without looking at it. A
    theme assigned to the store before hydration does not survive it, and
    a theme assigned after hydration is the one the store keeps. *)
Theorem hydration_overwrites_earlier_theme
    (config : Config) (ls : gmap string string) (sb : list Sub)
    (store : loc) (v : value) :
  Qwik.useContext StoreContext (serverRender config).2 = Some store →
  theme (hydrate ls sb (assignTheme store v (serverRender config).2))
  = theme (hydrate ls sb (serverRender config).2)
  ∧ theme (assignTheme store v (hydrate ls sb (serverRender config).2)) = Some v.
Proof.
  intros Hctx.
  rewrite serverRender_eq in Hctx. unfold Qwik.useContext in Hctx; simpl in Hctx.
  unfold StoreContext, Qwik.createContextId in Hctx.
  rewrite lookup_singleton_eq in Hctx. injection Hctx as <-.
  rewrite theme_hydrate_serverRender, serverRender_eq.
  split.
  - rewrite (theme_resolved _ 1) by reflexivity.
    cbn [hydrate Qwik.runVisibleTasks Qwik.deliver assignTheme world tasks foldl snd].
    rewrite reconcile_theme.
    + reflexivity.
    + cbn. rewrite lookup_alter_eq, lookup_singleton_eq. eauto.
  - rewrite (theme_resolved _ 1) by reflexivity.
    cbn [hydrate Qwik.runVisibleTasks Qwik.deliver assignTheme world tasks foldl snd].
    apply get_set_eq.
    unfold reconcile, Qwik.set; cbn.
    rewrite lookup_alter_eq, lookup_singleton_eq. eauto.
Qed.

Lemma hydration_overwrites_earlier_theme_witness :
  theme (hydrate {["theme" := "dark"]} []
           (assignTheme 1 (VStr "system")
              (serverRender {| loadingBar := {| enabled := false |} |}).2))
  = theme (hydrate {["theme" := "dark"]} []
             (serverRender {| loadingBar := {| enabled := false |} |}).2)
  ∧ theme (assignTheme 1 (VStr "system")
             (hydrate {["theme" := "dark"]} []
                (serverRender {| loadingBar := {| enabled := false |} |}).2))
    = Some (VStr "system").
Proof.
  apply (hydration_overwrites_earlier_theme
           {| loadingBar := {| enabled := false |} |} {["theme" := "dark"]} []
           1 (VStr "system")).
  reflexivity.
Defined.

(** ** Who is scheduled *)

Lemma elem_of_subscribers (l : loc) (p c : string) (sb : list Sub) :
  c ∈ Qwik.subscribers l p sb
  ↔ {| sub_store := l; sub_prop := p; sub_component := c |} ∈ sb.
Proof.
  unfold Qwik.subscribers. rewrite list_elem_of_fmap. split.
  - intros ([l' p' c'] & -> & Hin). apply list_elem_of_filter in Hin.
    simpl in *. by destruct Hin as [[-> ->] Hin].
  - intros Hin. eexists. split; [|apply list_elem_of_filter; split; [|done]];
      simpl; done.
Qed.

(** X8: hydration schedules nobody but subscribers of the theme of the
    preference store: a component with no subscription to that property
    of that store is not put on the queue. *)
Theorem hydration_spares_other_components
    (config : Config) (ls : gmap string string) (sb : list Sub)
    (store : loc) (component : string) :
  Qwik.useContext StoreContext (serverRender config).2 = Some store →
  {| sub_store := store; sub_prop := "theme"; sub_component := component |} ∉ sb →
  component ∉ notified (world (hydrate ls sb (serverRender config).2)).
Proof.
  intros Hctx Hsub.
  rewrite serverRender_eq in Hctx. unfold Qwik.useContext in Hctx; simpl in Hctx.
  unfold StoreContext, Qwik.createContextId in Hctx.
  rewrite lookup_singleton_eq in Hctx. injection Hctx as <-.
  rewrite notified_hydrate_serverRender. case_decide.
  - apply not_elem_of_nil.
  - by rewrite elem_of_subscribers.
Qed.

Lemma hydration_spares_other_components_witness :
  "Footer" ∉ notified (world (hydrate {["theme" := "dark"]}
    [ {| sub_store := 1; sub_prop := "theme"; sub_component := "Header" |};
      {| sub_store := 1; sub_prop := "lang"; sub_component := "Footer" |};
      {| sub_store := 2; sub_prop := "theme"; sub_component := "Footer" |} ]
    (serverRender {| loadingBar := {| enabled := true |} |}).2)).
Proof.
  apply (hydration_spares_other_components
           {| loadingBar := {| enabled := true |} |} {["theme" := "dark"]}
           [ {| sub_store := 1; sub_prop := "theme"; sub_component := "Header" |};
             {| sub_store := 1; sub_prop := "lang"; sub_component := "Footer" |};
             {| sub_store := 2; sub_prop := "theme"; sub_component := "Footer" |} ]
           1 "Footer").
  - reflexivity.
  - rewrite !elem_of_cons, elem_of_nil. intros [?|[?|[?|[]]]]; discriminate.
Defined.

(** ** Hydration on any page *)

(** X9: the layout behaves the same on a page that already holds other
    stores. When it is rendered for the first time with no task waiting
    and then hydrated, the theme of its store is what client storage
    holds under ["theme"], or [null], and every store that was on the
    page before keeps its contents. *)
Theorem hydration_on_any_page
    (config : Config) (r : Render) (ls : gmap string string) (sb : list Sub)
    (l : loc) (o : gmap string value) :
  seq r = ∅ →
  tasks r = [] →
  heap (world r) !! l = Some o →
  let r' := hydrate ls sb (Qwik.invoke (layout config) r).2 in
  theme r' = Some (match ls !! "theme" with Some s => VStr s | None => VNull end)
  ∧ heap (world r') !! l = Some o.
Proof.
  intros Hseq Htasks Hl r'. subst r'.
  pose proof (fresh_loc_ne _ _ _ Hl) as Hfresh.
  rewrite invoke_layout_first by done. rewrite Htasks.
  set (store := fresh (dom (heap (world r)))) in *.
  unfold hydrate, Qwik.runVisibleTasks, Qwik.deliver.
  cbn [world tasks foldl snd app heap notified].
  split.
  - rewrite (theme_resolved _ store) by (simpl; apply lookup_insert_eq).
    cbn [world]. rewrite reconcile_theme.
    + reflexivity.
    + cbn. rewrite lookup_insert_eq. eauto.
  - cbn [world]. unfold reconcile.
    rewrite heap_set_other_store by done. cbn.
    by rewrite lookup_insert_ne.
Qed.

Lemma hydration_on_any_page_witness :
  theme (hydrate {["theme" := "system"]} []
    (Qwik.invoke (layout {| loadingBar := {| enabled := true |} |})
      {| world := {| heap := {[1%positive := {["count" := VStr "3"]}]};
                     localStorage := ∅; subs := []; notified := [] |};
         seq := ∅; cursor := 0; contexts := ∅; tasks := [] |}).2)
  = Some (match ({["theme" := "system"]} : gmap string string) !! "theme" with
          | Some s => VStr s
          | None => VNull
          end)
  ∧ heap (world (hydrate {["theme" := "system"]} []
    (Qwik.invoke (layout {| loadingBar := {| enabled := true |} |})
      {| world := {| heap := {[1%positive := {["count" := VStr "3"]}]};
                     localStorage := ∅; subs := []; notified := [] |};
         seq := ∅; cursor := 0; contexts := ∅; tasks := [] |}).2)) !! 1%positive
  = Some {["count" := VStr "3"]}.
Proof.
  apply (hydration_on_any_page {| loadingBar := {| enabled := true |} |}
      {| world := {| heap := {[1%positive := {["count" := VStr "3"]}]};
                     localStorage := ∅; subs := []; notified := [] |};
         seq := ∅; cursor := 0; contexts := ∅; tasks := [] |}
      {["theme" := "system"]} [] 1 {["count" := VStr "3"]});
    reflexivity.
Defined.
